(** * SidebarBody: the forms view of the sidebar

    A shallow embedding of
    [packages/@tinacms/toolkit/src/packages/react-sidebar/components/SidebarBody.tsx]:
    the [FormsView] component, its two headers, the close handler of the
    multi-form header and the styled [FormWrapper] panel.

    A render is a pure function from what the component reads (the CMS, the
    sidebar context, its own hook state) to a tree of React elements.  Event
    handlers and effects are functions on that same state. *)

From Stdlib Require Import List String Ascii Bool Arith ZArith Lia.
Import ListNotations.
Open Scope string_scope.
Set Implicit Arguments.
Set Warnings "-register-all".

(** ** External collaborators

    The view consumes them read-only; their classes live in other packages
    ([../../forms], [../../react-core], [../../../plugins/form-meta],
    [./Sidebar]).  Only the members this file touches are kept. *)

(** final-form's [FormState], of which the view reads [invalid] only.  The
    handler compares with [=== true], so an absent value is kept apart from
    [false]. *)
Record FormState : Type := { invalid : option bool }.

(** A final-form instance is a mutable object: the form holds a handle and the
    state behind it is read when [getState()] is called. *)
Definition FinalForm : Type := nat.

Record Form : Type := {
  id : string;
  label : string;
  finalForm : FinalForm
}.

(** A React component contributed by a plugin, named by a handle. *)
Definition ComponentRef : Type := string.

Record FormMetaPlugin : Type := {
  name : string;
  Component : ComponentRef
}.

(** The registry of one plugin type: [all()] enumerates, [find(id)] looks one
    up and answers [undefined] ([None]) when there is none.  The two members
    are independent fields, so every theorem below holds for any registry. *)
Record PluginType (T : Type) : Type := {
  all : list T;
  find : string -> option T
}.

(** [cms.plugins]: [getType('form')], and [all('form:meta')] which is the
    enumeration of the ['form:meta'] registry. *)
Record PluginManager : Type := {
  getType_form : PluginType Form;
  getType_form_meta : PluginType FormMetaPlugin
}.

Definition plugins_all_form_meta (pm : PluginManager) : list FormMetaPlugin :=
  all (getType_form_meta pm).

Inductive AlertLevel : Type := info | success | warn | error.

Record Alert : Type := { level : AlertLevel; message : string }.

(** The CMS: plugin lookup, and the alerts dispatched so far (oldest first). *)
Record CMS : Type := {
  plugins : PluginManager;
  alerts : list Alert
}.

(** The part of [SidebarContext] this file reads. *)
Record SidebarContextValue : Type := {
  sidebarWidth : Z;
  formIsPristine : bool
}.

(** Everything a render, a handler or an effect of this file can read or
    write: the CMS, the sidebar context, the state behind the final-form
    handles, and the [activeFormId] cell of [useState<string>('')]. *)
Record World : Type := {
  cms : CMS;
  sidebar : SidebarContextValue;
  getState : FinalForm -> FormState;
  activeFormId : string
}.

(** Handlers and effects return nothing: they are state transformers. *)
Definition Effect : Type := World -> World.

(** The setter returned by [useState]. *)
Definition setActiveFormId (newId : string) : Effect :=
  fun w =>
    {| cms := cms w; sidebar := sidebar w; getState := getState w;
       activeFormId := newId |}.

(** Modelled from the spec: the sidebar context ([./Sidebar]) is not part of
    this file.  [setFormIsPristine] stores the flag that [formIsPristine]
    reads. *)
Definition setFormIsPristine (pristine : bool) : Effect :=
  fun w =>
    {| cms := cms w;
       sidebar := {| sidebarWidth := sidebarWidth (sidebar w);
                     formIsPristine := pristine |};
       getState := getState w;
       activeFormId := activeFormId w |}.

(** Modelled from the spec: the alerts of the CMS ("a CMS object exposing
    plugin lookup and alert dispatch") are not part of this file.
    [cms.alerts.error(message)] dispatches one more alert, of level [error],
    and touches nothing else. *)
Definition alerts_error (msg : string) : Effect :=
  fun w =>
    {| cms := {| plugins := plugins (cms w);
                 alerts := alerts (cms w) ++ [{| level := error; message := msg |}] |};
       sidebar := sidebar w;
       getState := getState w;
       activeFormId := activeFormId w |}.

(** The initial hook state: [useState<string>('')]. *)
Definition initialActiveFormId : string := "".

(** ** React elements *)

(** The [children] prop: [React.ReactChild | React.ReactChild[]], optional.
    The view hands it through without looking inside. *)
Inductive ReactChild : Type :=
| ReactText (text : string)
| ReactElement (type : ComponentRef).

Inductive ChildrenProp : Type :=
| ChildrenUndefined
| ChildrenOne (child : ReactChild)
| ChildrenMany (children : list ReactChild).

(** What a JSX expression of this file can evaluate to.  Every component the
    file instantiates has a constructor carrying its props; [NHost] is a DOM
    element. *)
Inductive node : Type :=
| NUndefined
| NBool (b : bool)
| NText (text : string)
| NChildren (children : ChildrenProp)
| NArray (items : list node)
| NFragment (key : option string) (children : list node)
| NHost (tag className : string) (onClick : option Effect) (children : list node)
| NFormList (isEditing : bool) (forms : list Form)
            (setActiveFormId : string -> Effect)
| NFormWrapper (isEditing isMultiform : bool) (children : list node)
| NMultiformFormHeader (activeForm : Form) (setActiveFormId : string -> Effect)
| NFormHeader (activeForm : Form)
| NComponent (type : ComponentRef)
| NFormBuilder (form : Form) (onPristineChange : bool -> Effect)
| NFormStatus (pristine : bool)
| NIoMdClose (className : string).

(** JavaScript's [a && b] for the operand types that occur: a falsy left
    operand is the value of the expression, a truthy one gives the right
    operand. *)
Definition and_bool (a : bool) (b : node) : node :=
  if a then b else NBool false.

Definition and_string (a : string) (b : node) : node :=
  if String.eqb a "" then NText a else b.

Definition and_object {A : Type} (a : option A) (b : A -> node) : node :=
  match a with
  | Some x => b x
  | None => NUndefined
  end.

(** An array is truthy, also when empty. *)
Definition and_array {A : Type} (a : list A) (b : node) : node := b.

Definition is_defined {A : Type} (a : option A) : bool :=
  match a with
  | Some _ => true
  | None => false
  end.

(** ** FormsView *)

Definition formPlugins (w : World) : PluginType Form :=
  getType_form (plugins (cms w)).

(** [setSingleActiveForm]: if there is only one form, make it the active
    form.  [all()[0]] exists when the length is 1; the other branch of the
    lookup is not reached. *)
Definition setSingleActiveForm : Effect :=
  fun w =>
    if Nat.eqb (List.length (all (formPlugins w))) 1 then
      match nth_error (all (formPlugins w)) 0 with
      | Some f => setActiveFormId (id f) w
      | None => w
      end
    else w.

(** The callback handed to [useSubscribable(formPlugins, ...)]: it runs on
    every event of the forms registry. *)
Definition onFormPluginsEvent : Effect := fun w => setSingleActiveForm w.

(** The [useEffect(..., [])] body: it runs once, on mount. *)
Definition onMount : Effect := fun w => setSingleActiveForm w.

Definition FormsView (w : World) (children : ChildrenProp) : node :=
  let forms := all (formPlugins w) in
  let isMultiform := Nat.ltb 1 (List.length forms) in
  let activeForm := find (formPlugins w) (activeFormId w) in
  let isEditing := is_defined activeForm in
  if Nat.eqb (List.length forms) 0 then
    NFragment None [NText " "; NChildren children; NText " "]
  else if isMultiform && negb (is_defined activeForm) then
    NFormList isEditing forms setActiveFormId
  else
    let formMetas := plugins_all_form_meta (plugins (cms w)) in
    NFragment None
      [and_object activeForm (fun activeForm =>
         NFormWrapper isEditing isMultiform
           [and_bool isMultiform
              (NMultiformFormHeader activeForm setActiveFormId);
            and_bool (negb isMultiform)
              (and_string (label activeForm) (NFormHeader activeForm));
            and_array formMetas
              (NArray (map (fun meta =>
                              NFragment (Some (name meta))
                                        [NComponent (Component meta)])
                           formMetas));
            NFormBuilder activeForm setFormIsPristine])].

(** ** The two headers *)

Definition LF : string := String (ascii_of_nat 10) "".

(** [state.invalid === true] *)
Definition strict_eq_true (v : option bool) : bool :=
  match v with
  | Some true => true
  | _ => false
  end.

(** The [onClick] of the multi-form header's button.  [cms.alerts.error] is
    the CMS of [useCMS()]; [setActiveFormId] is the prop. *)
Definition MultiformFormHeader_onClick
    (activeForm : Form) (setActiveFormId : string -> Effect) : Effect :=
  fun w =>
    let state := getState w (finalForm activeForm) in
    if strict_eq_true (invalid state) then
      alerts_error "Cannot navigate away from an invalid form." w
    else
      setActiveFormId "" w.

Definition MultiformFormHeader
    (activeForm : Form) (setActiveFormId : string -> Effect) : node :=
  NHost "div" "pt-18" None
    [NHost "button"
       ("relative group text-left w-full bg-white hover:bg-gray-50 py-2 border-t border-b shadow-sm"
        ++ LF ++ "   border-gray-100 px-6 -mt-px")
       (Some (MultiformFormHeader_onClick activeForm setActiveFormId))
       [NHost "div"
          "flex items-center justify-between gap-3 text-xs tracking-wide font-medium text-gray-700 group-hover:text-blue-400 uppercase max-w-form mx-auto"
          None
          [NText (label activeForm);
           NIoMdClose "h-auto w-5 inline-block opacity-70 -mt-0.5 -mx-0.5"]]].

(** [navBreakpoint] is imported from [./Sidebar]; it is a parameter here. *)
Definition FormHeader (navBreakpoint : Z) (ctx : SidebarContextValue)
    (activeForm : Form) : node :=
  NHost "div"
    ("py-4 border-b border-gray-200 bg-white "
     ++ (if Z.ltb navBreakpoint (sidebarWidth ctx) then "px-6" else "px-20"))
    None
    [NHost "div" "max-w-form mx-auto" None
       [NHost "span"
          "block text-xl mb-[6px] text-gray-700 font-medium leading-tight"
          None
          [NText (label activeForm)];
        NFormStatus (formIsPristine ctx)]].

(** ** Reading a tree *)

(** The node and everything below it, in document order. *)
Fixpoint subtree (n : node) : list node :=
  n ::
  match n with
  | NArray l => flat_map subtree l
  | NFragment _ l => flat_map subtree l
  | NHost _ _ _ l => flat_map subtree l
  | NFormWrapper _ _ l => flat_map subtree l
  | _ => []
  end.

(** What a value contributes to the parent it is placed in: [undefined] and
    booleans render nothing, arrays and fragments stand for their items. *)
Fixpoint output (n : node) : list node :=
  match n with
  | NUndefined => []
  | NBool _ => []
  | NArray l => flat_map output l
  | NFragment _ l => flat_map output l
  | _ => [n]
  end.

Definition is_FormList (n : node) : bool :=
  match n with NFormList _ _ _ => true | _ => false end.

Definition is_FormBuilder (n : node) : bool :=
  match n with NFormBuilder _ _ => true | _ => false end.

Definition is_FormWrapper (n : node) : bool :=
  match n with NFormWrapper _ _ _ => true | _ => false end.

Definition is_header (n : node) : bool :=
  match n with
  | NMultiformFormHeader _ _ => true
  | NFormHeader _ => true
  | _ => false
  end.

Definition is_FormStatus (n : node) : bool :=
  match n with NFormStatus _ => true | _ => false end.

Definition renders (p : node -> bool) (n : node) : bool :=
  existsb p (subtree n).

Definition is_IoMdClose (n : node) : bool :=
  match n with NIoMdClose _ => true | _ => false end.

Definition is_host (n : node) : bool :=
  match n with NHost _ _ _ _ => true | _ => false end.

(** What a tree puts inside its DOM elements: every node that is not itself a
    DOM element, in document order. *)
Definition displayed (n : node) : list node :=
  filter (fun m => negb (is_host m)) (subtree n).

(** Selectors over single nodes, and the lists they pick from a tree in
    document order. *)
Definition text_of (m : node) : list string :=
  match m with NText s => [s] | _ => [] end.

Definition status_of (m : node) : list bool :=
  match m with NFormStatus b => [b] | _ => [] end.

Definition component_of (m : node) : list ComponentRef :=
  match m with NComponent c => [c] | _ => [] end.

Definition key_of (m : node) : list string :=
  match m with NFragment (Some k) _ => [k] | _ => [] end.


(** The strings shown by a tree. *)
Definition texts (n : node) : list string := flat_map text_of (subtree n).

(** The pristine flags handed to [FormStatus]. *)
Definition statuses (n : node) : list bool := flat_map status_of (subtree n).

(** The plugin components instantiated by a tree. *)
Definition components (n : node) : list ComponentRef :=
  flat_map component_of (subtree n).

(** The keys of the keyed fragments of a tree. *)
Definition keys (n : node) : list string := flat_map key_of (subtree n).


(** The element built for one meta plugin by the [map] of [FormsView]:
    a fragment keyed by the plugin's name around its component. *)
Definition meta_fragment (meta : FormMetaPlugin) : node :=
  NFragment (Some (name meta)) [NComponent (Component meta)].

(** ** Styled components *)

Module Styled.

(** [keyframes`...`]: selector and declarations of each step. *)
Record Keyframes : Type := {
  steps : list (string * list (string * string))
}.

(** A declared value: literal text, or the name of a keyframes object
    interpolated into the template. *)
Inductive css_value : Type :=
| Lit (text : string)
| NameOf (k : Keyframes).

Inductive css_item : Type :=
| Decl (property : string) (value : css_value)
| Rule (selector : string) (body : list (string * css_value)).

(** What a function interpolation can return here: [false], or a [css]
    fragment.  A falsy interpolation contributes nothing. *)
Inductive interpolation : Type :=
| IFalse
| ICss (items : list css_item).

Definition and_css (a : bool) (b : list css_item) : interpolation :=
  if a then ICss b else IFalse.

Definition interpolate (i : interpolation) : list css_item :=
  match i with
  | IFalse => []
  | ICss items => items
  end.

Definition FormAnimationKeyframes : Keyframes :=
  {| steps :=
       [("0%", [("transform", "translate3d( 100%, 0, 0 )")]);
        ("100%", [("transform", "translate3d( 0, 0, 0 )")])] |}.

Record FormWrapperProps : Type := {
  isEditing : bool;
  isMultiform : bool
}.

Definition FormWrapper (p : FormWrapperProps) : list css_item :=
  [Decl "flex" (Lit "1 1 0");
   Decl "display" (Lit "flex");
   Decl "flex-direction" (Lit "column");
   Decl "flex-wrap" (Lit "nowrap");
   Decl "overflow" (Lit "hidden");
   Decl "height" (Lit "100%");
   Decl "width" (Lit "100%");
   Decl "position" (Lit "relative");
   Decl "background" (Lit "white");
   Rule "> *" [("transform", Lit "translate3d(100%, 0, 0)")]]
  ++ interpolate
       (and_css (isEditing p)
          [Rule "> *"
             [("transform", Lit "none");
              ("animation-name", NameOf FormAnimationKeyframes);
              ("animation-duration", Lit "150ms");
              ("animation-delay", Lit "0");
              ("animation-iteration-count", Lit "1");
              ("animation-timing-function", Lit "ease-out")]]).

(** The declarations a style sheet makes for one selector, in source
    order. *)
Definition declarations_for (selector : string) (sheet : list css_item)
    : list (string * css_value) :=
  flat_map (fun item =>
              match item with
              | Rule s body => if String.eqb s selector then body else []
              | Decl _ _ => []
              end) sheet.

(** Among declarations of equal specificity the last one wins. *)
Definition last_declared (property : string)
    (decls : list (string * css_value)) : option css_value :=
  fold_left (fun acc d => if String.eqb (fst d) property then Some (snd d)
                          else acc)
            decls None.

Definition computed (selector property : string) (sheet : list css_item)
    : option css_value :=
  last_declared property (declarations_for selector sheet).


End Styled.

(** ** A concrete registry and sample states *)

(** Modelled from the spec: the plugin registry class ([PluginType], in the
    core package) is not part of this file; the spec describes it as "a forms
    registry exposing enumerate/find-by-id".  [all()] enumerates the plugins
    in registration order and [find] answers the first one stored under the
    key. *)
Definition registry_of {T : Type} (key : T -> string) (items : list T)
    : PluginType T :=
  {| all := items;
     find := fun k => List.find (fun x => String.eqb (key x) k) items |}.

Definition form_a : Form := {| id := "a"; label := "Post"; finalForm := 0 |}.
Definition form_b : Form := {| id := "b"; label := "Author"; finalForm := 1 |}.

(** A form registered under the empty id. *)
Definition form_blank : Form := {| id := ""; label := "Untitled"; finalForm := 2 |}.

Definition meta_1 : FormMetaPlugin := {| name := "one"; Component := "MetaOne" |}.
Definition meta_2 : FormMetaPlugin := {| name := "two"; Component := "MetaTwo" |}.

(** In the sample states the final form behind handle 1 (that of [form_b])
    is invalid and the others are valid. *)
Definition world_of (forms : list Form) (metas : list FormMetaPlugin)
    (active : string) : World :=
  {| cms := {| plugins := {| getType_form := registry_of id forms;
                             getType_form_meta := registry_of name metas |};
               alerts := [] |};
     sidebar := {| sidebarWidth := 1200; formIsPristine := true |};
     getState := fun h => {| invalid := Some (Nat.eqb h 1) |};
     activeFormId := active |}.

Definition some_children : ChildrenProp :=
  ChildrenOne (ReactText "No forms").

(** ** Further readings of a tree, and registry histories *)

(** The style props of the [FormWrapper] panels of a tree, in document
    order. *)
Definition panel_of (m : node) : list Styled.FormWrapperProps :=
  match m with
  | NFormWrapper e m' _ =>
      [{| Styled.isEditing := e; Styled.isMultiform := m' |}]
  | _ => []
  end.

Definition panels (n : node) : list Styled.FormWrapperProps :=
  flat_map panel_of (subtree n).

(** The [className] of an element. *)
Definition className_of (n : node) : option string :=
  match n with
  | NHost _ c _ _ => Some c
  | NIoMdClose c => Some c
  | _ => None
  end.

(** The forms registry is mutated by its owner, not by the view: the state
    after the registry has become [r]. *)
Definition with_forms (r : PluginType Form) (w : World) : World :=
  {| cms := {| plugins := {| getType_form := r;
                             getType_form_meta :=
                               getType_form_meta (plugins (cms w)) |};
               alerts := alerts (cms w) |};
     sidebar := sidebar w;
     getState := getState w;
     activeFormId := activeFormId w |}.

(** A history of the registry: after each change the subscription callback
    runs on the registry as it then is. *)
Fixpoint run_events (history : list (PluginType Form)) (w : World) : World :=
  match history with
  | [] => w
  | r :: rest => run_events rest (onFormPluginsEvent (with_forms r w))
  end.

(** The only form of a registry, when it holds exactly one. *)
Definition sole_form (r : PluginType Form) : option Form :=
  match all r with
  | [f] => Some f
  | _ => None
  end.

(** The only form of the latest registry of a history that held exactly
    one. *)
Fixpoint last_sole_form (history : list (PluginType Form)) : option Form :=
  match history with
  | [] => None
  | r :: rest =>
      match last_sole_form rest with
      | Some f => Some f
      | None => sole_form r
      end
  end.

(** A form without a label. *)
Definition form_unlabelled : Form := {| id := "u"; label := ""; finalForm := 3 |}.

(** * Properties *)

(** ** Helper lemmas *)

Lemma formPlugins_setActiveFormId (a : string) (w : World) :
  formPlugins (setActiveFormId a w) = formPlugins w.
Proof. reflexivity. Qed.

Lemma length_zero_eqb {A : Type} (l : list A) :
  Nat.eqb (List.length l) 0 = true <-> l = [].
Proof.
  destruct l as [|x l]; simpl; split; intro H;
    try reflexivity; discriminate H.
Qed.

(** The view when the lookup of the active id fails and there is at least
    one form. *)
Lemma FormsView_not_found (w : World) (c : ChildrenProp) :
  all (formPlugins w) <> [] ->
  find (formPlugins w) (activeFormId w) = None ->
  FormsView w c =
    if Nat.ltb 1 (List.length (all (formPlugins w)))
    then NFormList false (all (formPlugins w)) setActiveFormId
    else NFragment None [NUndefined].
Proof.
  intros Hne Hfind. unfold FormsView. rewrite Hfind.
  destruct (Nat.eqb (List.length (all (formPlugins w))) 0) eqn:E.
  - apply length_zero_eqb in E. contradiction.
  - simpl. destruct (Nat.ltb 1 (List.length (all (formPlugins w))));
      reflexivity.
Qed.

(** The view when the lookup of the active id succeeds and there is at least
    one form: the editor state. *)
Lemma FormsView_found (w : World) (c : ChildrenProp) (f : Form) :
  all (formPlugins w) <> [] ->
  find (formPlugins w) (activeFormId w) = Some f ->
  FormsView w c =
    let isMultiform := Nat.ltb 1 (List.length (all (formPlugins w))) in
    let formMetas := plugins_all_form_meta (plugins (cms w)) in
    NFragment None
      [NFormWrapper true isMultiform
         [and_bool isMultiform (NMultiformFormHeader f setActiveFormId);
          and_bool (negb isMultiform)
            (and_string (label f) (NFormHeader f));
          NArray (map (fun meta =>
                         NFragment (Some (name meta))
                                   [NComponent (Component meta)])
                      formMetas);
          NFormBuilder f setFormIsPristine]].
Proof.
  intros Hne Hfind. unfold FormsView. rewrite Hfind.
  destruct (Nat.eqb (List.length (all (formPlugins w))) 0) eqn:E.
  - apply length_zero_eqb in E. contradiction.
  - simpl. rewrite andb_false_r. reflexivity.
Qed.

(** A header slot is a leaf of the tree whatever its guards evaluate to. *)
Lemma multiform_slot_leaf (b : bool) (f : Form) (s : string -> Effect) :
  subtree (and_bool b (NMultiformFormHeader f s))
  = [and_bool b (NMultiformFormHeader f s)].
Proof. destruct b; reflexivity. Qed.

Lemma single_slot_leaf (b : bool) (f : Form) :
  subtree (and_bool b (and_string (label f) (NFormHeader f)))
  = [and_bool b (and_string (label f) (NFormHeader f))].
Proof.
  destruct b; simpl; [|reflexivity].
  unfold and_string. destruct (String.eqb (label f) ""); reflexivity.
Qed.

Lemma multiform_slot_cases (b : bool) (f : Form) (s : string -> Effect) :
  and_bool b (NMultiformFormHeader f s) = NBool false \/
  and_bool b (NMultiformFormHeader f s) = NMultiformFormHeader f s.
Proof. destruct b; [right|left]; reflexivity. Qed.

Lemma single_slot_cases (b : bool) (f : Form) :
  and_bool b (and_string (label f) (NFormHeader f)) = NBool false \/
  and_bool b (and_string (label f) (NFormHeader f)) = NText "" \/
  and_bool b (and_string (label f) (NFormHeader f)) = NFormHeader f.
Proof.
  destruct b; [|left; reflexivity]. right. simpl. unfold and_string.
  destruct (String.eqb (label f) "") eqn:E.
  - left. apply String.eqb_eq in E. rewrite E. reflexivity.
  - right. reflexivity.
Qed.

(** What the mapped meta fragments contribute, by induction on the list the
    registry returned. *)
Lemma meta_fragments_components (metas : list FormMetaPlugin) :
  flat_map component_of (flat_map subtree (map meta_fragment metas))
  = map Component metas.
Proof.
  induction metas as [|m metas IH].
  - reflexivity.
  - cbn [map flat_map]. rewrite flat_map_app, IH. reflexivity.
Qed.

Lemma meta_fragments_keys (metas : list FormMetaPlugin) :
  flat_map key_of (flat_map subtree (map meta_fragment metas))
  = map name metas.
Proof.
  induction metas as [|m metas IH].
  - reflexivity.
  - cbn [map flat_map]. rewrite flat_map_app, IH. reflexivity.
Qed.

(** The tree of the editor state, spelled out node by node. *)
Lemma subtree_editor (b : bool) (f : Form) (metas : list FormMetaPlugin) :
  subtree
    (NFragment None
       [NFormWrapper true b
          [and_bool b (NMultiformFormHeader f setActiveFormId);
           and_bool (negb b) (and_string (label f) (NFormHeader f));
           NArray (map meta_fragment metas);
           NFormBuilder f setFormIsPristine]])
  = ([NFragment None
       [NFormWrapper true b
          [and_bool b (NMultiformFormHeader f setActiveFormId);
           and_bool (negb b) (and_string (label f) (NFormHeader f));
           NArray (map meta_fragment metas);
           NFormBuilder f setFormIsPristine]];
     NFormWrapper true b
       [and_bool b (NMultiformFormHeader f setActiveFormId);
        and_bool (negb b) (and_string (label f) (NFormHeader f));
        NArray (map meta_fragment metas);
        NFormBuilder f setFormIsPristine];
     and_bool b (NMultiformFormHeader f setActiveFormId);
     and_bool (negb b) (and_string (label f) (NFormHeader f));
     NArray (map meta_fragment metas)]
    ++ flat_map subtree (map meta_fragment metas)
    ++ [NFormBuilder f setFormIsPristine])%list.
Proof.
  cbn [subtree flat_map].
  rewrite multiform_slot_leaf, single_slot_leaf.
  cbn [app]. rewrite !app_nil_r. reflexivity.
Qed.

Lemma header_slots_no_component (b : bool) (f : Form) :
  component_of (and_bool b (NMultiformFormHeader f setActiveFormId)) = [] /\
  component_of (and_bool (negb b) (and_string (label f) (NFormHeader f))) = [].
Proof.
  split.
  - destruct b; reflexivity.
  - destruct (single_slot_cases (negb b) f) as [-> | [-> | ->]]; reflexivity.
Qed.

Lemma header_slots_no_key (b : bool) (f : Form) :
  key_of (and_bool b (NMultiformFormHeader f setActiveFormId)) = [] /\
  key_of (and_bool (negb b) (and_string (label f) (NFormHeader f))) = [].
Proof.
  split.
  - destruct b; reflexivity.
  - destruct (single_slot_cases (negb b) f) as [-> | [-> | ->]]; reflexivity.
Qed.

Lemma editor_components (b : bool) (f : Form) (metas : list FormMetaPlugin) :
  components
    (NFragment None
       [NFormWrapper true b
          [and_bool b (NMultiformFormHeader f setActiveFormId);
           and_bool (negb b) (and_string (label f) (NFormHeader f));
           NArray (map meta_fragment metas);
           NFormBuilder f setFormIsPristine]])
  = map Component metas.
Proof.
  unfold components. rewrite subtree_editor.
  destruct (header_slots_no_component b f) as [H1 H2].
  cbn [flat_map app]. rewrite H1, H2. cbn [component_of app].
  rewrite flat_map_app, meta_fragments_components.
  cbn [flat_map component_of app]. apply app_nil_r.
Qed.

Lemma editor_keys (b : bool) (f : Form) (metas : list FormMetaPlugin) :
  keys
    (NFragment None
       [NFormWrapper true b
          [and_bool b (NMultiformFormHeader f setActiveFormId);
           and_bool (negb b) (and_string (label f) (NFormHeader f));
           NArray (map meta_fragment metas);
           NFormBuilder f setFormIsPristine]])
  = map name metas.
Proof.
  unfold keys. rewrite subtree_editor.
  destruct (header_slots_no_key b f) as [H1 H2].
  cbn [flat_map app]. rewrite H1, H2. cbn [key_of app].
  rewrite flat_map_app, meta_fragments_keys.
  cbn [flat_map key_of app]. apply app_nil_r.
Qed.

(** ** The render states of FormsView *)

(** C1, as amended.  When the forms registry is empty, whatever the active
    form id, [FormsView] renders one fragment that holds a single-space text,
    the [children] prop and another single-space text, in that order (the
    "no forms" state); it renders neither the form list nor the editing
    surface. *)
Theorem FormsView_no_forms (w : World) (c : ChildrenProp) :
  all (formPlugins w) = [] ->
  forall active : string,
    FormsView (setActiveFormId active w) c
      = NFragment None [NText " "; NChildren c; NText " "] /\
    output (FormsView (setActiveFormId active w) c)
      = [NText " "; NChildren c; NText " "] /\
    renders is_FormList (FormsView (setActiveFormId active w) c) = false /\
    renders is_FormWrapper (FormsView (setActiveFormId active w) c) = false /\
    renders is_FormBuilder (FormsView (setActiveFormId active w) c) = false.
Proof.
  intros Hall active.
  assert (E : FormsView (setActiveFormId active w) c
              = NFragment None [NText " "; NChildren c; NText " "]).
  { unfold FormsView. rewrite formPlugins_setActiveFormId, Hall. reflexivity. }
  rewrite E. repeat split; reflexivity.
Qed.

Lemma FormsView_no_forms_witness :
  all (formPlugins (world_of [] [meta_1] "")) = [] /\
  output (FormsView (setActiveFormId "a" (world_of [] [meta_1] "")) some_children)
    = [NText " "; NChildren some_children; NText " "].
Proof.
  split; [reflexivity|].
  apply (FormsView_no_forms (world_of [] [meta_1] "") some_children
           eq_refl "a").
Defined.

(** C1 as the claim words it fails: with an empty registry the output is not
    the [children] prop alone, the two text nodes of the JSX
    [<> {children} </>] come with it. *)
Lemma FormsView_no_forms_not_children_alone :
  all (formPlugins (world_of [] [] "")) = [] /\
  output (FormsView (world_of [] [] "") some_children)
    <> [NChildren some_children] /\
  FormsView (world_of [] [] "") some_children
    <> NFragment None [NChildren some_children].
Proof.
  split; [reflexivity|]. split; intro H; discriminate H.
Qed.

(** C2.  With more than one registered form and an active form id that the
    registry does not find, [FormsView] renders [FormList] with the full list
    of forms and the [setActiveFormId] setter (and [isEditing] false). *)
Theorem FormsView_form_list (w : World) (c : ChildrenProp) :
  1 < List.length (all (formPlugins w)) ->
  find (formPlugins w) (activeFormId w) = None ->
  FormsView w c = NFormList false (all (formPlugins w)) setActiveFormId.
Proof.
  intros Hlen Hfind.
  rewrite FormsView_not_found; trivial.
  - apply Nat.ltb_lt in Hlen. rewrite Hlen. reflexivity.
  - intro E. rewrite E in Hlen. simpl in Hlen. lia.
Qed.

Lemma FormsView_form_list_witness :
  FormsView (world_of [form_a; form_b] [meta_1] "gone") some_children
    = NFormList false [form_a; form_b] setActiveFormId.
Proof.
  apply (FormsView_form_list (world_of [form_a; form_b] [meta_1] "gone")
           some_children).
  - simpl. lia.
  - reflexivity.
Defined.

(** C6, as amended.  With the active form id empty and no form found under
    the empty id: when more than one form is registered [FormsView] renders
    the form list and no editing surface; when exactly one form is registered
    it renders nothing, neither list nor editing surface. *)
Theorem FormsView_empty_id (w : World) (c : ChildrenProp) :
  activeFormId w = "" ->
  find (formPlugins w) "" = None ->
  (1 < List.length (all (formPlugins w)) ->
     FormsView w c = NFormList false (all (formPlugins w)) setActiveFormId /\
     renders is_FormList (FormsView w c) = true /\
     renders is_FormBuilder (FormsView w c) = false) /\
  (List.length (all (formPlugins w)) = 1 ->
     output (FormsView w c) = [] /\
     renders is_FormList (FormsView w c) = false /\
     renders is_FormBuilder (FormsView w c) = false).
Proof.
  intros Hactive Hfind. rewrite <- Hactive in Hfind.
  split; intro Hlen.
  - rewrite FormsView_not_found; trivial.
    + apply Nat.ltb_lt in Hlen. rewrite Hlen. repeat split; reflexivity.
    + intro E. rewrite E in Hlen. simpl in Hlen. lia.
  - rewrite FormsView_not_found; trivial.
    + rewrite Hlen. repeat split; reflexivity.
    + intro E. rewrite E in Hlen. discriminate Hlen.
Qed.

Lemma FormsView_empty_id_witness :
  FormsView (world_of [form_a; form_b] [] "") some_children
    = NFormList false [form_a; form_b] setActiveFormId /\
  output (FormsView (world_of [form_a] [] "") some_children) = [].
Proof.
  split.
  - apply (FormsView_empty_id (world_of [form_a; form_b] [] "") some_children
             eq_refl eq_refl).
    simpl. lia.
  - apply (FormsView_empty_id (world_of [form_a] [] "") some_children
             eq_refl eq_refl).
    reflexivity.
Defined.

(** C6 as the claim words it fails: a registry holding one form is not empty,
    yet with the empty active form id the view renders no form list. *)
Lemma FormsView_empty_id_single_form_no_list :
  all (formPlugins (world_of [form_a] [] "")) <> [] /\
  activeFormId (world_of [form_a] [] "") = "" /\
  renders is_FormList (FormsView (world_of [form_a] [] "") some_children)
    = false /\
  FormsView (world_of [form_a] [] "") some_children
    = NFragment None [NUndefined].
Proof.
  split; [intro H; discriminate H|]. repeat split; reflexivity.
Qed.

(** Why the amended C6 asks that nothing is found under the empty id: a form
    registered under it is the active form of the initial state, and the view
    shows its editor, not the list. *)
Remark FormsView_empty_id_registered :
  activeFormId (world_of [form_blank; form_b] [] "") = "" /\
  renders is_FormList
    (FormsView (world_of [form_blank; form_b] [] "") some_children) = false /\
  renders is_FormBuilder
    (FormsView (world_of [form_blank; form_b] [] "") some_children) = true.
Proof. repeat split; reflexivity. Qed.

(** C10.  The editing surface is rendered only when the registry finds the
    active form id: if [FormBuilder] appears then [find] returned a form, and
    when [find] returns nothing neither [FormWrapper] nor [FormBuilder]
    appears.  In particular, with exactly one registered form and an active
    form id that is not found, the view is a fragment around [undefined]: it
    renders nothing, neither the list, nor a header, nor the editor. *)
Theorem FormsView_editor_only_when_found (w : World) (c : ChildrenProp) :
  (renders is_FormBuilder (FormsView w c) = true ->
     exists f, find (formPlugins w) (activeFormId w) = Some f) /\
  (find (formPlugins w) (activeFormId w) = None ->
     renders is_FormWrapper (FormsView w c) = false /\
     renders is_FormBuilder (FormsView w c) = false) /\
  (List.length (all (formPlugins w)) = 1 ->
   find (formPlugins w) (activeFormId w) = None ->
     FormsView w c = NFragment None [NUndefined] /\
     output (FormsView w c) = [] /\
     renders is_FormList (FormsView w c) = false /\
     renders is_header (FormsView w c) = false /\
     renders is_FormBuilder (FormsView w c) = false).
Proof.
  assert (Hnone : find (formPlugins w) (activeFormId w) = None ->
                  renders is_FormWrapper (FormsView w c) = false /\
                  renders is_FormBuilder (FormsView w c) = false).
  { intro Hfind.
    destruct (all (formPlugins w)) as [|x l] eqn:Hall.
    - unfold FormsView. rewrite Hall. split; reflexivity.
    - rewrite FormsView_not_found; trivial.
      + destruct (Nat.ltb 1 (List.length (all (formPlugins w))));
          split; reflexivity.
      + rewrite Hall. discriminate. }
  split; [|split].
  - intro Hshown.
    destruct (find (formPlugins w) (activeFormId w)) as [f|] eqn:Hfind.
    + exists f. reflexivity.
    + destruct (Hnone eq_refl) as [_ Hno]. rewrite Hno in Hshown.
      discriminate Hshown.
  - exact Hnone.
  - intros Hlen Hfind. rewrite FormsView_not_found; trivial.
    + rewrite Hlen. repeat split; reflexivity.
    + intro E. rewrite E in Hlen. discriminate Hlen.
Qed.

Lemma FormsView_editor_only_when_found_witness :
  (exists f, find (formPlugins (world_of [form_a; form_b] [] "b")) "b" = Some f) /\
  renders is_FormBuilder
    (FormsView (world_of [form_a; form_b] [] "gone") some_children) = false /\
  FormsView (world_of [form_a] [] "b") some_children
    = NFragment None [NUndefined].
Proof.
  split; [|split].
  - exact (proj1 (FormsView_editor_only_when_found
                    (world_of [form_a; form_b] [] "b") some_children)
                 eq_refl).
  - exact (proj2 (proj1 (proj2 (FormsView_editor_only_when_found
                                  (world_of [form_a; form_b] [] "gone")
                                  some_children))
                        eq_refl)).
  - exact (proj1 (proj2 (proj2 (FormsView_editor_only_when_found
                                  (world_of [form_a] [] "b") some_children))
                        eq_refl eq_refl)).
Defined.

(** C7.  In the editor state (the registry is not empty and finds the active
    form id) the plugin components instantiated by the view are exactly the
    components of the form-meta plugins the registry returned: one per plugin,
    in the registry's order, none skipped or repeated; each sits in a fragment
    keyed by its plugin's name. *)
Theorem FormsView_meta_components (w : World) (c : ChildrenProp) (f : Form) :
  all (formPlugins w) <> [] ->
  find (formPlugins w) (activeFormId w) = Some f ->
  components (FormsView w c)
    = map Component (plugins_all_form_meta (plugins (cms w))) /\
  keys (FormsView w c)
    = map name (plugins_all_form_meta (plugins (cms w))) /\
  List.length (components (FormsView w c))
    = List.length (plugins_all_form_meta (plugins (cms w))).
Proof.
  intros Hne Hfind. rewrite (FormsView_found w c Hne Hfind). cbv zeta.
  change (fun meta => NFragment (Some (name meta)) [NComponent (Component meta)])
    with meta_fragment.
  rewrite editor_components, editor_keys, length_map.
  repeat split; reflexivity.
Qed.

Lemma FormsView_meta_components_witness :
  components (FormsView (world_of [form_a; form_b] [meta_2; meta_1; meta_2] "b")
                        some_children)
    = ["MetaTwo"; "MetaOne"; "MetaTwo"].
Proof.
  apply (FormsView_meta_components
           (world_of [form_a; form_b] [meta_2; meta_1; meta_2] "b")
           some_children (f := form_b)).
  - intro H; discriminate H.
  - reflexivity.
Defined.

(** ** Single active form auto-selection *)

(** C3.  On mount and on every event of the forms registry, when the registry
    holds exactly one form the active form id becomes that form's id (and
    nothing else changes). *)
Theorem setSingleActiveForm_single (w : World) (f : Form) :
  all (formPlugins w) = [f] ->
  onMount w = setActiveFormId (id f) w /\
  onFormPluginsEvent w = setActiveFormId (id f) w /\
  activeFormId (onMount w) = id f /\
  activeFormId (onFormPluginsEvent w) = id f.
Proof.
  intro Hall. unfold onMount, onFormPluginsEvent, setSingleActiveForm.
  rewrite Hall. repeat split; reflexivity.
Qed.

Lemma setSingleActiveForm_single_witness :
  activeFormId (onMount (world_of [form_b] [] "")) = "b" /\
  activeFormId (onFormPluginsEvent (world_of [form_b] [] "a")) = "b".
Proof.
  split.
  - apply (setSingleActiveForm_single (world_of [form_b] [] "") eq_refl).
  - apply (setSingleActiveForm_single (world_of [form_b] [] "a") eq_refl).
Defined.

(** C9.  When the registry does not hold exactly one form (none, or two or
    more), the mount effect and the subscription callback change nothing; the
    active form id in particular is left as it was. *)
Theorem setSingleActiveForm_noop (w : World) :
  List.length (all (formPlugins w)) <> 1 ->
  onMount w = w /\
  onFormPluginsEvent w = w /\
  activeFormId (onMount w) = activeFormId w /\
  activeFormId (onFormPluginsEvent w) = activeFormId w.
Proof.
  intro Hlen. unfold onMount, onFormPluginsEvent, setSingleActiveForm.
  apply Nat.eqb_neq in Hlen. rewrite Hlen. repeat split; reflexivity.
Qed.

Lemma setSingleActiveForm_noop_witness :
  activeFormId (onFormPluginsEvent (world_of [form_a; form_b] [] "")) = "" /\
  activeFormId (onMount (world_of [] [] "a")) = "a".
Proof.
  split.
  - apply (setSingleActiveForm_noop (world_of [form_a; form_b] [] "")).
    simpl. lia.
  - apply (setSingleActiveForm_noop (world_of [] [] "a")).
    simpl. lia.
Defined.

(** The TODO above [setSingleActiveForm] in the source: forms register one by
    one, so the first event sees a single form and selects it, and the later
    events, seeing several forms, leave that selection in place.  The view
    then shows the editor of the first form rather than the list. *)
Remark forms_registered_one_by_one :
  let w1 := onFormPluginsEvent (world_of [form_a] [] "") in
  let w2 := onFormPluginsEvent (world_of [form_a; form_b] [] (activeFormId w1)) in
  activeFormId w1 = "a" /\
  activeFormId w2 = "a" /\
  renders is_FormList (FormsView w2 some_children) = false /\
  renders is_FormBuilder (FormsView w2 some_children) = true.
Proof. repeat split; reflexivity. Qed.

(** ** The headers *)



(** C5, as amended.  Both headers display the active form's label, and
    nothing else as text.  The single-form header also displays the
    pristine/dirty status, one [FormStatus] fed with the sidebar context's
    [formIsPristine]; the multi-form header displays no status, it shows the
    close icon instead.  Inside their DOM elements the single-form header
    holds the label followed by the status and nothing more, the multi-form
    header the label followed by one [IoMdClose] icon and nothing more; the
    single-form header has no close icon. *)
Theorem headers_display (navBreakpoint : Z) (ctx : SidebarContextValue)
    (f : Form) (setter : string -> Effect) :
  texts (FormHeader navBreakpoint ctx f) = [label f] /\
  statuses (FormHeader navBreakpoint ctx f) = [formIsPristine ctx] /\
  texts (MultiformFormHeader f setter) = [label f] /\
  statuses (MultiformFormHeader f setter) = [] /\
  renders is_FormStatus (MultiformFormHeader f setter) = false /\
  displayed (FormHeader navBreakpoint ctx f)
    = [NText (label f); NFormStatus (formIsPristine ctx)] /\
  displayed (MultiformFormHeader f setter)
    = [NText (label f);
       NIoMdClose "h-auto w-5 inline-block opacity-70 -mt-0.5 -mx-0.5"] /\
  filter is_IoMdClose (subtree (MultiformFormHeader f setter))
    = [NIoMdClose "h-auto w-5 inline-block opacity-70 -mt-0.5 -mx-0.5"] /\
  renders is_IoMdClose (FormHeader navBreakpoint ctx f) = false.
Proof.
  unfold texts, statuses, displayed, renders, MultiformFormHeader, FormHeader.
  cbn [subtree flat_map app].
  repeat split; reflexivity.
Qed.

(** C5 as the claim words it fails: the multi-form header rendered with an
    active form displays no pristine/dirty status. *)
Lemma MultiformFormHeader_displays_no_status :
  renders is_FormStatus (MultiformFormHeader form_a setActiveFormId) = false /\
  statuses (MultiformFormHeader form_a setActiveFormId) = [].
Proof. split; reflexivity. Qed.

(** ** The animated panel *)



(** * Further properties *)

(** ** Helper lemmas *)

(** The mapped meta fragments hold nothing but keyed fragments and plugin
    components. *)
Lemma meta_fragments_filter (p : node -> bool) (metas : list FormMetaPlugin) :
  (forall m, p (meta_fragment m) = false) ->
  (forall c, p (NComponent c) = false) ->
  filter p (flat_map subtree (map meta_fragment metas)) = [].
Proof.
  intros Hfrag Hcomp. induction metas as [|m metas IH].
  - reflexivity.
  - cbn [map flat_map]. rewrite filter_app, IH.
    change (subtree (meta_fragment m))
      with [meta_fragment m; NComponent (Component m)].
    cbn [filter]. rewrite Hfrag, Hcomp. reflexivity.
Qed.

Lemma meta_fragments_panels (metas : list FormMetaPlugin) :
  flat_map panel_of (flat_map subtree (map meta_fragment metas)) = [].
Proof.
  induction metas as [|m metas IH].
  - reflexivity.
  - cbn [map flat_map]. rewrite flat_map_app, IH. reflexivity.
Qed.

Lemma existsb_filter_nil {A : Type} (p : A -> bool) (l : list A) :
  filter p l = [] -> existsb p l = false.
Proof.
  induction l as [|x l IH]; simpl; [reflexivity|].
  destruct (p x); [discriminate|]. exact IH.
Qed.

(** The four shapes of the view, by registry contents and lookup result. *)
Lemma FormsView_cases (w : World) (c : ChildrenProp) :
  (all (formPlugins w) = [] /\
   FormsView w c = NFragment None [NText " "; NChildren c; NText " "]) \/
  (1 < List.length (all (formPlugins w)) /\
   find (formPlugins w) (activeFormId w) = None /\
   FormsView w c = NFormList false (all (formPlugins w)) setActiveFormId) \/
  (List.length (all (formPlugins w)) = 1 /\
   find (formPlugins w) (activeFormId w) = None /\
   FormsView w c = NFragment None [NUndefined]) \/
  (all (formPlugins w) <> [] /\
   exists f, find (formPlugins w) (activeFormId w) = Some f /\
     FormsView w c =
       NFragment None
         [NFormWrapper true (Nat.ltb 1 (List.length (all (formPlugins w))))
            [and_bool (Nat.ltb 1 (List.length (all (formPlugins w))))
               (NMultiformFormHeader f setActiveFormId);
             and_bool (negb (Nat.ltb 1 (List.length (all (formPlugins w)))))
               (and_string (label f) (NFormHeader f));
             NArray (map meta_fragment
                         (plugins_all_form_meta (plugins (cms w))));
             NFormBuilder f setFormIsPristine]]).
Proof.
  destruct (all (formPlugins w)) as [|x l] eqn:Hall.
  - left. split; [reflexivity|]. unfold FormsView. rewrite Hall. reflexivity.
  - right.
    assert (Hne : all (formPlugins w) <> []) by (rewrite Hall; discriminate).
    destruct (find (formPlugins w) (activeFormId w)) as [f|] eqn:Hfind.
    + right. right. split; [discriminate|]. exists f. split; [reflexivity|].
      rewrite (FormsView_found w c Hne Hfind), Hall. reflexivity.
    + rewrite (FormsView_not_found w c Hne Hfind), Hall.
      destruct l as [|y l].
      * right. left. repeat split; reflexivity.
      * left. repeat split. simpl. lia.
Qed.

(** What a predicate that holds of no header slot, no keyed fragment and no
    plugin component selects from the editor state. *)
Lemma editor_filter (p : node -> bool) (b : bool) (f : Form)
    (metas : list FormMetaPlugin) :
  (forall m, p (meta_fragment m) = false) ->
  (forall c, p (NComponent c) = false) ->
  filter p
    (subtree
       (NFragment None
          [NFormWrapper true b
             [and_bool b (NMultiformFormHeader f setActiveFormId);
              and_bool (negb b) (and_string (label f) (NFormHeader f));
              NArray (map meta_fragment metas);
              NFormBuilder f setFormIsPristine]]))
  = (filter p
       [NFragment None
          [NFormWrapper true b
             [and_bool b (NMultiformFormHeader f setActiveFormId);
              and_bool (negb b) (and_string (label f) (NFormHeader f));
              NArray (map meta_fragment metas);
              NFormBuilder f setFormIsPristine]];
        NFormWrapper true b
          [and_bool b (NMultiformFormHeader f setActiveFormId);
           and_bool (negb b) (and_string (label f) (NFormHeader f));
           NArray (map meta_fragment metas);
           NFormBuilder f setFormIsPristine];
        and_bool b (NMultiformFormHeader f setActiveFormId);
        and_bool (negb b) (and_string (label f) (NFormHeader f));
        NArray (map meta_fragment metas)]
     ++ filter p [NFormBuilder f setFormIsPristine])%list.
Proof.
  intros Hfrag Hcomp. rewrite subtree_editor, !filter_app.
  rewrite (meta_fragments_filter p metas Hfrag Hcomp). reflexivity.
Qed.

Lemma editor_panels (b : bool) (f : Form) (metas : list FormMetaPlugin) :
  panels
    (NFragment None
       [NFormWrapper true b
          [and_bool b (NMultiformFormHeader f setActiveFormId);
           and_bool (negb b) (and_string (label f) (NFormHeader f));
           NArray (map meta_fragment metas);
           NFormBuilder f setFormIsPristine]])
  = [{| Styled.isEditing := true; Styled.isMultiform := b |}].
Proof.
  unfold panels. rewrite subtree_editor, !flat_map_app.
  rewrite meta_fragments_panels.
  destruct b; cbn [negb and_bool]; unfold and_string;
    destruct (String.eqb (label f) ""); reflexivity.
Qed.

Lemma editor_renders_builder (b : bool) (f : Form)
    (metas : list FormMetaPlugin) :
  renders is_FormBuilder
    (NFragment None
       [NFormWrapper true b
          [and_bool b (NMultiformFormHeader f setActiveFormId);
           and_bool (negb b) (and_string (label f) (NFormHeader f));
           NArray (map meta_fragment metas);
           NFormBuilder f setFormIsPristine]])
  = true.
Proof.
  unfold renders. rewrite subtree_editor, !existsb_app.
  cbn [existsb is_FormBuilder]. rewrite !orb_true_r. reflexivity.
Qed.

Lemma editor_renders_no_list (b : bool) (f : Form)
    (metas : list FormMetaPlugin) :
  renders is_FormList
    (NFragment None
       [NFormWrapper true b
          [and_bool b (NMultiformFormHeader f setActiveFormId);
           and_bool (negb b) (and_string (label f) (NFormHeader f));
           NArray (map meta_fragment metas);
           NFormBuilder f setFormIsPristine]])
  = false.
Proof.
  unfold renders. apply existsb_filter_nil.
  rewrite editor_filter by reflexivity.
  destruct b; cbn [negb and_bool]; unfold and_string;
    destruct (String.eqb (label f) ""); reflexivity.
Qed.

(** What one registry event does to the active form id. *)
Lemma event_active_id (r : PluginType Form) (w : World) :
  activeFormId (onFormPluginsEvent (with_forms r w))
  = match sole_form r with
    | Some f => id f
    | None => activeFormId w
    end.
Proof.
  unfold onFormPluginsEvent, setSingleActiveForm, sole_form.
  change (all (formPlugins (with_forms r w))) with (all r).
  destruct (all r) as [|f [|g l]]; reflexivity.
Qed.

(** ** The editor state in full *)

(** In the editor state the view holds exactly one [FormBuilder]: it edits
    the form the registry found, reports pristine changes to
    [setFormIsPristine], and comes last in the tree, after the header and the
    meta components.  There is one panel, with [isEditing] true and
    [isMultiform] telling whether more than one form is registered. *)
Theorem FormsView_editor (w : World) (c : ChildrenProp) (f : Form) :
  all (formPlugins w) <> [] ->
  find (formPlugins w) (activeFormId w) = Some f ->
  filter is_FormBuilder (subtree (FormsView w c))
    = [NFormBuilder f setFormIsPristine] /\
  last (subtree (FormsView w c)) NUndefined
    = NFormBuilder f setFormIsPristine /\
  panels (FormsView w c)
    = [{| Styled.isEditing := true;
          Styled.isMultiform :=
            Nat.ltb 1 (List.length (all (formPlugins w))) |}].
Proof.
  intros Hne Hfind. rewrite (FormsView_found w c Hne Hfind). cbv zeta.
  change (fun meta => NFragment (Some (name meta)) [NComponent (Component meta)])
    with meta_fragment.
  set (b := Nat.ltb 1 (List.length (all (formPlugins w)))).
  set (metas := plugins_all_form_meta (plugins (cms w))).
  split; [|split].
  - rewrite editor_filter by reflexivity.
    destruct b; cbn [negb and_bool]; unfold and_string;
      destruct (String.eqb (label f) ""); reflexivity.
  - rewrite subtree_editor, !app_assoc. apply last_last.
  - apply editor_panels.
Qed.

Lemma FormsView_editor_witness :
  filter is_FormBuilder
    (subtree (FormsView (world_of [form_a; form_b] [meta_1] "b") some_children))
    = [NFormBuilder form_b setFormIsPristine].
Proof.
  apply (FormsView_editor (world_of [form_a; form_b] [meta_1] "b")
           some_children (f := form_b)).
  - intro H; discriminate H.
  - reflexivity.
Defined.

(** In the editor state the header is chosen by the number of forms: with
    more than one form the multi-form header of the found form, wired to the
    [setActiveFormId] setter; with one form the single-form header, and no
    header at all when that form's label is empty. *)
Theorem FormsView_editor_header (w : World) (c : ChildrenProp) (f : Form) :
  all (formPlugins w) <> [] ->
  find (formPlugins w) (activeFormId w) = Some f ->
  filter is_header (subtree (FormsView w c))
    = if Nat.ltb 1 (List.length (all (formPlugins w)))
      then [NMultiformFormHeader f setActiveFormId]
      else if String.eqb (label f) "" then [] else [NFormHeader f].
Proof.
  intros Hne Hfind. rewrite (FormsView_found w c Hne Hfind). cbv zeta.
  change (fun meta => NFragment (Some (name meta)) [NComponent (Component meta)])
    with meta_fragment.
  rewrite editor_filter by reflexivity.
  destruct (Nat.ltb 1 (List.length (all (formPlugins w))));
    cbn [negb and_bool]; unfold and_string;
    destruct (String.eqb (label f) ""); reflexivity.
Qed.

Lemma FormsView_editor_header_witness :
  filter is_header
    (subtree (FormsView (world_of [form_a; form_b] [] "a") some_children))
    = [NMultiformFormHeader form_a setActiveFormId] /\
  filter is_header
    (subtree (FormsView (world_of [form_a] [] "a") some_children))
    = [NFormHeader form_a] /\
  filter is_header
    (subtree (FormsView (world_of [form_unlabelled] [] "u") some_children))
    = [].
Proof.
  split; [|split].
  - apply (FormsView_editor_header (world_of [form_a; form_b] [] "a")
             some_children (f := form_a)); [intro H; discriminate H|reflexivity].
  - apply (FormsView_editor_header (world_of [form_a] [] "a")
             some_children (f := form_a)); [intro H; discriminate H|reflexivity].
  - apply (FormsView_editor_header (world_of [form_unlabelled] [] "u")
             some_children (f := form_unlabelled));
      [intro H; discriminate H|reflexivity].
Defined.

(** ** When the list and when the editor *)

(** The form list is rendered exactly when more than one form is registered
    and the registry does not find the active form id: never with one form or
    none, and never while the active form is found. *)
Theorem FormsView_list_iff (w : World) (c : ChildrenProp) :
  renders is_FormList (FormsView w c) = true <->
  1 < List.length (all (formPlugins w)) /\
  find (formPlugins w) (activeFormId w) = None.
Proof.
  destruct (FormsView_cases w c)
    as [[Hall E] | [[Hlen [Hfind E]] | [[Hlen [Hfind E]] | [Hne [f [Hfind E]]]]]];
    rewrite E.
  - split; [intro H; discriminate H|].
    intros [Hlen _]. rewrite Hall in Hlen. simpl in Hlen. lia.
  - split; [intros _; split; assumption | intros _; reflexivity].
  - split; [intro H; discriminate H|]. intros [H _]. lia.
  - rewrite editor_renders_no_list.
    split; [intro H; discriminate H|].
    intros [_ H]. rewrite Hfind in H. discriminate H.
Qed.

Lemma FormsView_list_iff_witness :
  renders is_FormList
    (FormsView (world_of [form_a; form_b] [] "gone") some_children) = true /\
  find (formPlugins (world_of [form_a; form_b] [] ""))
       (activeFormId (world_of [form_a; form_b] [] "")) = None.
Proof.
  split.
  - apply (proj2 (FormsView_list_iff (world_of [form_a; form_b] [] "gone")
                    some_children)).
    split; [simpl; lia | reflexivity].
  - apply (proj1 (FormsView_list_iff (world_of [form_a; form_b] [] "")
                    some_children)).
    reflexivity.
Defined.

(** The editing surface is rendered exactly when the registry is not empty
    and finds the active form id.  A form that [find] still answers while the
    enumeration is empty is not edited: the "no forms" state wins. *)
Theorem FormsView_editor_iff (w : World) (c : ChildrenProp) :
  renders is_FormBuilder (FormsView w c) = true <->
  all (formPlugins w) <> [] /\
  exists f, find (formPlugins w) (activeFormId w) = Some f.
Proof.
  destruct (FormsView_cases w c)
    as [[Hall E] | [[Hlen [Hfind E]] | [[Hlen [Hfind E]] | [Hne [f [Hfind E]]]]]];
    rewrite E.
  - split; [intro H; discriminate H|]. intros [H _]. contradiction.
  - split; [intro H; discriminate H|].
    intros [_ [f H]]. rewrite Hfind in H. discriminate H.
  - split; [intro H; discriminate H|].
    intros [_ [f H]]. rewrite Hfind in H. discriminate H.
  - rewrite editor_renders_builder.
    split; [|intros _; reflexivity].
    intros _. split; [exact Hne|]. exists f. exact Hfind.
Qed.

Lemma FormsView_editor_iff_witness :
  renders is_FormBuilder
    (FormsView (world_of [form_a; form_b] [] "a") some_children) = true /\
  all (formPlugins (world_of [form_a] [] "a")) <> [].
Proof.
  split.
  - apply (proj2 (FormsView_editor_iff (world_of [form_a; form_b] [] "a")
                    some_children)).
    split; [intro H; discriminate H|]. exists form_a. reflexivity.
  - apply (proj1 (FormsView_editor_iff (world_of [form_a] [] "a")
                    some_children)).
    reflexivity.
Defined.

(** Whatever the registry and the active form id, a panel that [FormsView]
    renders has [isEditing] true: its children get the slide-in keyframes and
    the transform [none], never the bare off-screen transform. *)
Theorem FormsView_panel_animated (w : World) (c : ChildrenProp)
    (p : Styled.FormWrapperProps) :
  In p (panels (FormsView w c)) ->
  Styled.isEditing p = true /\
  Styled.computed "> *" "animation-name" (Styled.FormWrapper p)
    = Some (Styled.NameOf Styled.FormAnimationKeyframes) /\
  Styled.computed "> *" "transform" (Styled.FormWrapper p)
    = Some (Styled.Lit "none").
Proof.
  destruct (FormsView_cases w c)
    as [[Hall E] | [[Hlen [Hfind E]] | [[Hlen [Hfind E]] | [Hne [f [Hfind E]]]]]];
    rewrite E.
  - intros [].
  - intros [].
  - intros [].
  - rewrite editor_panels. intros [<- | []]. repeat split; reflexivity.
Qed.

Lemma FormsView_panel_animated_witness :
  Styled.computed "> *" "transform"
    (Styled.FormWrapper {| Styled.isEditing := true; Styled.isMultiform := true |})
    = Some (Styled.Lit "none").
Proof.
  apply (FormsView_panel_animated
           (world_of [form_a; form_b] [meta_1] "b") some_children
           {| Styled.isEditing := true; Styled.isMultiform := true |}).
  simpl. left. reflexivity.
Defined.

(** ** Handlers and effects composed with the render *)

(** Closing a valid form among several brings the list back: when more than
    one form is registered, no form is found under the empty id and the
    active form's state does not have [invalid === true], the view rendered
    after a click on the close button is the form list of all forms. *)
Theorem close_returns_to_list (w : World) (c : ChildrenProp) (f : Form) :
  1 < List.length (all (formPlugins w)) ->
  find (formPlugins w) "" = None ->
  invalid (getState w (finalForm f)) <> Some true ->
  FormsView (MultiformFormHeader_onClick f setActiveFormId w) c
    = NFormList false (all (formPlugins w)) setActiveFormId.
Proof.
  intros Hlen Hfind Hvalid.
  assert (E : MultiformFormHeader_onClick f setActiveFormId w
              = setActiveFormId "" w).
  { unfold MultiformFormHeader_onClick.
    destruct (invalid (getState w (finalForm f))) as [[|]|];
      [contradiction Hvalid; reflexivity| |]; reflexivity. }
  rewrite E, FormsView_not_found.
  - rewrite formPlugins_setActiveFormId.
    apply Nat.ltb_lt in Hlen. rewrite Hlen. reflexivity.
  - rewrite formPlugins_setActiveFormId. intro H. rewrite H in Hlen.
    simpl in Hlen. lia.
  - exact Hfind.
Qed.

Lemma close_returns_to_list_witness :
  FormsView (MultiformFormHeader_onClick form_a setActiveFormId
               (world_of [form_a; form_b] [meta_1] "a")) some_children
    = NFormList false [form_a; form_b] setActiveFormId.
Proof.
  apply (close_returns_to_list (world_of [form_a; form_b] [meta_1] "a")
           some_children form_a).
  - simpl. lia.
  - reflexivity.
  - simpl. intro H. discriminate H.
Defined.

(** Closing an invalid form changes nothing on screen: when the active
    form's state has [invalid === true], the view rendered after a click on
    the close button is the view rendered before it. *)
Theorem close_invalid_keeps_view (w : World) (c : ChildrenProp) (f : Form) :
  invalid (getState w (finalForm f)) = Some true ->
  FormsView (MultiformFormHeader_onClick f setActiveFormId w) c
    = FormsView w c.
Proof.
  intro Hinvalid. unfold MultiformFormHeader_onClick. rewrite Hinvalid.
  reflexivity.
Qed.

Lemma close_invalid_keeps_view_witness :
  FormsView (MultiformFormHeader_onClick form_b setActiveFormId
               (world_of [form_a; form_b] [meta_1] "b")) some_children
    = FormsView (world_of [form_a; form_b] [meta_1] "b") some_children.
Proof.
  apply (close_invalid_keeps_view (world_of [form_a; form_b] [meta_1] "b")
           some_children form_b).
  reflexivity.
Defined.

(** Selecting and closing is a round trip: from a state with no selection,
    choosing any id (the setter handed to the form list) and then clicking
    the close button of a form that is not invalid gives back the very state
    one started from. *)
Theorem select_then_close_restores (w : World) (i : string) (f : Form) :
  activeFormId w = "" ->
  invalid (getState w (finalForm f)) <> Some true ->
  MultiformFormHeader_onClick f setActiveFormId (setActiveFormId i w) = w.
Proof.
  intros Hactive Hvalid. unfold MultiformFormHeader_onClick.
  destruct w as [wcms wsidebar wstate wactive].
  cbn [setActiveFormId getState cms sidebar activeFormId] in *.
  subst wactive.
  destruct (invalid (wstate (finalForm f))) as [[|]|];
    [contradiction Hvalid; reflexivity| |]; reflexivity.
Qed.

Lemma select_then_close_restores_witness :
  MultiformFormHeader_onClick form_a setActiveFormId
    (setActiveFormId "a" (world_of [form_a; form_b] [meta_1] ""))
  = world_of [form_a; form_b] [meta_1] "".
Proof.
  apply (select_then_close_restores (world_of [form_a; form_b] [meta_1] "")
           "a" form_a).
  - reflexivity.
  - simpl. intro H. discriminate H.
Defined.

(** The auto-selection is idempotent and touches the active form id only:
    running the subscription callback or the mount effect again on its own
    result changes nothing, and the CMS, the sidebar context and the form
    states are those it was given. *)
Theorem setSingleActiveForm_idempotent (w : World) :
  onFormPluginsEvent (onFormPluginsEvent w) = onFormPluginsEvent w /\
  onMount (onFormPluginsEvent w) = onFormPluginsEvent w /\
  onFormPluginsEvent (onMount w) = onMount w /\
  cms (onFormPluginsEvent w) = cms w /\
  sidebar (onFormPluginsEvent w) = sidebar w /\
  getState (onFormPluginsEvent w) = getState w.
Proof.
  unfold onMount, onFormPluginsEvent, setSingleActiveForm.
  destruct (all (formPlugins w)) as [|f [|g l]] eqn:Hall.
  - simpl. rewrite Hall. repeat split; reflexivity.
  - simpl. rewrite formPlugins_setActiveFormId, Hall.
    repeat split; reflexivity.
  - simpl. rewrite Hall. repeat split; reflexivity.
Qed.

(** A single form goes straight to its editor: when the registry holds
    exactly one form and finds it under its id, the view rendered after the
    mount effect edits that form in a single-form panel, with the single-form
    header (none if the label is empty), no close button and no form list. *)
Theorem mount_with_single_form (w : World) (c : ChildrenProp) (f : Form) :
  all (formPlugins w) = [f] ->
  find (formPlugins w) (id f) = Some f ->
  filter is_FormBuilder (subtree (FormsView (onMount w) c))
    = [NFormBuilder f setFormIsPristine] /\
  filter is_header (subtree (FormsView (onMount w) c))
    = (if String.eqb (label f) "" then [] else [NFormHeader f]) /\
  panels (FormsView (onMount w) c)
    = [{| Styled.isEditing := true; Styled.isMultiform := false |}] /\
  renders is_FormList (FormsView (onMount w) c) = false.
Proof.
  intros Hall Hfind.
  assert (E : onMount w = setActiveFormId (id f) w).
  { unfold onMount, setSingleActiveForm. rewrite Hall. reflexivity. }
  rewrite E.
  assert (Hne : all (formPlugins (setActiveFormId (id f) w)) <> []).
  { rewrite formPlugins_setActiveFormId, Hall. discriminate. }
  rewrite (FormsView_found (setActiveFormId (id f) w) c Hne Hfind). cbv zeta.
  change (fun meta => NFragment (Some (name meta)) [NComponent (Component meta)])
    with meta_fragment.
  rewrite formPlugins_setActiveFormId, Hall. cbn [List.length Nat.ltb Nat.leb].
  rewrite editor_panels, editor_renders_no_list, !editor_filter by reflexivity.
  cbn [negb and_bool]. unfold and_string.
  destruct (String.eqb (label f) ""); repeat split; reflexivity.
Qed.

Lemma mount_with_single_form_witness :
  filter is_header
    (subtree (FormsView (onMount (world_of [form_b] [meta_1] "")) some_children))
    = [NFormHeader form_b].
Proof.
  apply (mount_with_single_form (world_of [form_b] [meta_1] "") some_children
           (f := form_b)); reflexivity.
Defined.

(** Over a whole history of the registry, the active form id ends as the id
    of the only form of the latest registry that held exactly one form, and
    as it started when no registry of the history did.  Registries with no
    form or with several never select and never clear a selection. *)
Theorem run_events_active_id (history : list (PluginType Form)) (w : World) :
  activeFormId (run_events history w)
  = match last_sole_form history with
    | Some f => id f
    | None => activeFormId w
    end.
Proof.
  revert w. induction history as [|r rest IH]; intro w.
  - reflexivity.
  - cbn [run_events last_sole_form]. rewrite IH.
    destruct (last_sole_form rest) as [f|]; [reflexivity|].
    apply event_active_id.
Qed.

(** ** The single-form header and the breakpoint *)

(** The single-form header is padded [px-6] exactly when the sidebar is wider
    than the navigation breakpoint; at the breakpoint itself and below it is
    padded [px-20]. *)
Theorem FormHeader_padding (navBreakpoint : Z) (ctx : SidebarContextValue)
    (f : Form) :
  (className_of (FormHeader navBreakpoint ctx f)
     = Some "py-4 border-b border-gray-200 bg-white px-6"
   <-> (navBreakpoint < sidebarWidth ctx)%Z) /\
  (className_of (FormHeader navBreakpoint ctx f)
     = Some "py-4 border-b border-gray-200 bg-white px-20"
   <-> (sidebarWidth ctx <= navBreakpoint)%Z).
Proof.
  unfold FormHeader, className_of.
  destruct (Z.ltb_spec navBreakpoint (sidebarWidth ctx)) as [Hlt | Hge].
  - split; split; intro H; try reflexivity; try lia. discriminate H.
  - split; split; intro H; try reflexivity; try lia. discriminate H.
Qed.

Lemma FormHeader_padding_witness :
  className_of (FormHeader 1000
                  {| sidebarWidth := 1000; formIsPristine := true |} form_a)
    = Some "py-4 border-b border-gray-200 bg-white px-20".
Proof.
  apply (proj2 (proj2 (FormHeader_padding 1000
                  {| sidebarWidth := 1000; formIsPristine := true |} form_a))).
  simpl. lia.
Defined.
